(** * Instacart dashboard: the data pipeline of [streamlit_app/app.py]

    The script loads four tables, merges them with three inner joins
    ([prepare_merged]), filters the merged table by department and hour range
    ([filter_data]) and computes the metrics and aggregates it displays.

    A pandas [DataFrame] is embedded as the list of its rows, a [Series] as
    the list of its values (or of its [(label, value)] pairs when it carries an
    index), a Python exception as the [Raise] branch of [result], and a
    float64 as an exact rational or [NaN]. *)

From Stdlib Require Import String Bool Arith ZArith QArith Qreduction List.
From Stdlib Require Import Permutation Sorted Lia.
Import ListNotations.

Local Open Scope Z_scope.

(** ** Python values *)

(** The one exception the pipeline can raise: [Series.idxmax] on an empty
    series raises [ValueError]. *)
Inductive exn : Type :=
| ValueError.

Inductive result (A : Type) : Type :=
| Ok (a : A)
| Raise (e : exn).

Arguments Ok {A} a.
Arguments Raise {A} e.

Definition bind {A B : Type} (r : result A) (k : A -> result B) : result B :=
  match r with
  | Ok a => k a
  | Raise e => Raise e
  end.

(** A float64 produced by [mean]: a number or NaN. *)
Inductive float : Type :=
| Num (q : Q)
| NaN.

(** ** Tables *)

(** Modelled from the spec: the schemas of the four tables read from
    [instacart.db] (the database is not part of the sources); only the
    columns the pipeline reads are kept. *)
Record Product : Type := mkProduct {
  p_product_id : Z;
  p_product_name : string;
  p_department_id : Z
}.

Record Order : Type := mkOrder {
  o_order_id : Z;
  o_order_hour_of_day : Z;
  o_order_dow : Z
}.

Record OrderProduct : Type := mkOrderProduct {
  op_order_id : Z;
  op_product_id : Z;
  op_reordered : Z
}.

Record Department : Type := mkDepartment {
  d_department_id : Z;
  d_department : string
}.

(** A row of [merged]: the columns of the four tables, each key column once. *)
Record MergedRow : Type := mkMergedRow {
  order_id : Z;
  product_id : Z;
  reordered : Z;
  product_name : string;
  department_id : Z;
  order_hour_of_day : Z;
  order_dow : Z;
  department : string
}.

Definition merged_row (op : OrderProduct) (p : Product) (o : Order)
    (d : Department) : MergedRow :=
  {| order_id := op_order_id op;
     product_id := op_product_id op;
     reordered := op_reordered op;
     product_name := p_product_name p;
     department_id := p_department_id p;
     order_hour_of_day := o_order_hour_of_day o;
     order_dow := o_order_dow o;
     department := d_department d |}.

(** ** pandas operations *)

Section Frames.
Context {A B : Type}.

(** [left.merge(right, on=key)]: inner equality join; every left row, in
    order, is paired with each right row carrying the same key. *)
Definition merge (key_l : A -> Z) (key_r : B -> Z)
    (left : list A) (right : list B) : list (A * B) :=
  flat_map (fun a => map (pair a) (filter (fun b => key_l a =? key_r b) right))
           left.
End Frames.

Section Series.
Context {A : Type}.
Variable eqb : A -> A -> bool.

(** [Series.unique()]: the distinct values in order of first appearance. *)
Fixpoint unique (l : list A) : list A :=
  match l with
  | [] => []
  | x :: t => x :: filter (fun y => negb (eqb x y)) (unique t)
  end.

(** [Series.nunique()]. *)
Definition nunique (l : list A) : nat := length (unique l).

(** Number of occurrences of [x] in a column. *)
Definition count (x : A) (l : list A) : nat := length (filter (eqb x) l).
End Series.

Section Sorting.
Context {A : Type}.
Variable leb : A -> A -> bool.

Fixpoint insert (x : A) (l : list A) : list A :=
  match l with
  | [] => [x]
  | y :: t => if leb x y then x :: y :: t else y :: insert x t
  end.

(** [sort_values], as a stable sort: of two rows that compare equal the one
    that came first stays first. *)
Fixpoint sort_values (l : list A) : list A :=
  match l with
  | [] => []
  | x :: t => insert x (sort_values t)
  end.
End Sorting.

(** [sorted(...)] on a list of strings. *)
Definition sorted (l : list string) : list string := sort_values String.leb l.

(** [Series.head(n)]. *)
Definition head {A : Type} (n : nat) (l : list A) : list A := firstn n l.

(** [Series.value_counts()]: one entry per distinct value with its number of
    occurrences, sorted by descending count. *)
Definition value_counts (l : list string) : list (string * nat) :=
  sort_values (fun a b => (snd b <=? snd a)%nat)
              (map (fun k => (k, count String.eqb k l)) (unique String.eqb l)).

(** [Series.idxmax()]: the label of the first occurrence of the maximum;
    [ValueError] on an empty series. *)
Fixpoint idxmax_from (best : string * nat) (l : list (string * nat)) : string :=
  match l with
  | [] => fst best
  | x :: t => if (snd best <? snd x)%nat then idxmax_from x t
              else idxmax_from best t
  end.

Definition idxmax (s : list (string * nat)) : result string :=
  match s with
  | [] => Raise ValueError
  | x :: t => Ok (idxmax_from x t)
  end.

(** [df.groupby(key)]: the groups by ascending key, each with its rows. *)
Definition groupby {A K : Type} (eqb leb : K -> K -> bool) (key : A -> K)
    (df : list A) : list (K * list A) :=
  map (fun k => (k, filter (fun r => eqb (key r) k) df))
      (sort_values leb (unique eqb (map key df))).

Definition sum (l : list Z) : Z := fold_right Z.add 0 l.

(** [Series.mean()] of an integer column: NaN on an empty one. *)
Definition mean (l : list Z) : float :=
  match l with
  | [] => NaN
  | _ :: _ => Num (Qred (inject_Z (sum l) / inject_Z (Z.of_nat (length l))))
  end.

(** Descending order of floats for [sort_values(ascending=False)], NaN last. *)
Definition float_geb (x y : float) : bool :=
  match x, y with
  | Num a, Num b => Qle_bool b a
  | Num _, NaN => true
  | NaN, Num _ => false
  | NaN, NaN => true
  end.

(** ** The pipeline *)

Definition prepare_merged (products : list Product) (orders : list Order)
    (order_products : list OrderProduct) (departments : list Department)
    : list MergedRow :=
  let merged := merge op_product_id p_product_id order_products products in
  let merged := merge (fun r => op_order_id (fst r)) o_order_id merged orders in
  let merged := merge (fun r => p_department_id (snd (fst r))) d_department_id
                      merged departments in
  map (fun r => merged_row (fst (fst (fst r))) (snd (fst (fst r)))
                           (snd (fst r)) (snd r)) merged.

(** [Series.between(lo, hi)], inclusive on both sides. *)
Definition between (x lo hi : Z) : bool := (lo <=? x) && (x <=? hi).

Definition dept_options (merged : list MergedRow) : list string :=
  unique String.eqb (map department merged).

(** The entries offered by the department select box. *)
Definition selectbox_options (merged : list MergedRow) : list string :=
  sorted (dept_options merged).

Definition filter_data (merged : list MergedRow) (selected_dept : string)
    (hour_range : Z * Z) : list MergedRow :=
  filter (fun r => String.eqb (department r) selected_dept
                   && between (order_hour_of_day r) (fst hour_range)
                              (snd hour_range))
         merged.

(** [filtered_df[filtered_df['reordered'] == 1]['product_name']]. *)
Definition reordered_names (filtered_df : list MergedRow) : list string :=
  map product_name (filter (fun r => reordered r =? 1) filtered_df).

Definition total_orders (filtered_df : list MergedRow) : nat :=
  nunique Z.eqb (map order_id filtered_df).

(** [filtered_df.groupby('order_id')['product_id'].count()]. *)
Definition basket_sizes (filtered_df : list MergedRow) : list (Z * Z) :=
  map (fun g => (fst g, Z.of_nat (length (snd g))))
      (groupby Z.eqb Z.leb order_id filtered_df).

Definition avg_basket_size (filtered_df : list MergedRow) : float :=
  mean (map snd (basket_sizes filtered_df)).

Definition top_product (filtered_df : list MergedRow) : result string :=
  idxmax (value_counts (reordered_names filtered_df)).

Definition top_products (filtered_df : list MergedRow) (top_n : nat)
    : list (string * nat) :=
  head top_n (value_counts (reordered_names filtered_df)).

(** [df.groupby("department")["reordered"].mean()
       .sort_values(ascending=False)]. *)
Definition reorder_ratio (df : list MergedRow) : list (string * float) :=
  sort_values (fun a b => float_geb (snd a) (snd b))
              (map (fun g => (fst g, mean (map reordered (snd g))))
                   (groupby String.eqb String.leb department df)).

(** What one run of the script displays. *)
Record Page : Type := mkPage {
  pg_total_orders : nat;
  pg_avg_basket_size : float;
  pg_top_product : string;
  pg_top_products : list (string * nat);
  pg_reorder_ratio : list (string * float)
}.

(** The script from the filter on, in statement order: the metrics, then the
    tabs; an exception ends the run. *)
Definition page (merged : list MergedRow) (top_n : nat)
    (selected_dept : string) (hour_range : Z * Z) : result Page :=
  let filtered_df := filter_data merged selected_dept hour_range in
  let total := total_orders filtered_df in
  let avg := avg_basket_size filtered_df in
  bind (top_product filtered_df) (fun top =>
  Ok {| pg_total_orders := total;
        pg_avg_basket_size := avg;
        pg_top_product := top;
        pg_top_products := top_products filtered_df top_n;
        pg_reorder_ratio := reorder_ratio filtered_df |}).

(** ** The data model's constraints on the tables *)

Fixpoint distinct (keys : list Z) : bool :=
  match keys with
  | [] => true
  | k :: rest => negb (existsb (Z.eqb k) rest) && distinct rest
  end.

(** [product_id], [order_id] and [department_id] are unique keys of the
    Product, Order and Department tables. *)
Definition unique_keys (products : list Product) (orders : list Order)
    (departments : list Department) : bool :=
  distinct (map p_product_id products)
  && distinct (map o_order_id orders)
  && distinct (map d_department_id departments).

(** Every [product_id] and [order_id] of [order_products] occurs in
    [products] and [orders], and the [department_id] of every product an
    [order_products] row refers to occurs in [departments]. *)
Definition referential_integrity (products : list Product)
    (orders : list Order) (order_products : list OrderProduct)
    (departments : list Department) : bool :=
  forallb
    (fun op =>
       existsb (fun p => op_product_id op =? p_product_id p) products
       && existsb (fun o => op_order_id op =? o_order_id o) orders
       && forallb
            (fun p =>
               implb (op_product_id op =? p_product_id p)
                     (existsb (fun d => p_department_id p =? d_department_id d)
                              departments))
            products)
    order_products.

(** ** The joins in another order *)

(** The six orders of the Product, Order and Department joins; the source
    applies [Product_Order_Department]. *)
Inductive join_order : Type :=
| Product_Order_Department
| Product_Department_Order
| Order_Product_Department
| Order_Department_Product
| Department_Product_Order
| Department_Order_Product.

(** The merged table with the three joins applied in the given order. Only
    [products] has a [department_id] column, so a Department join placed
    before the Product join attaches the departments to [products], and the
    Product join then brings both in. *)
Definition prepare_merged_in (jo : join_order) (products : list Product)
    (orders : list Order) (order_products : list OrderProduct)
    (departments : list Department) : list MergedRow :=
  match jo with
  | Product_Order_Department =>
      prepare_merged products orders order_products departments
  | Product_Department_Order =>
      let merged := merge op_product_id p_product_id order_products products in
      let merged := merge (fun r => p_department_id (snd r)) d_department_id
                          merged departments in
      let merged := merge (fun r => op_order_id (fst (fst r))) o_order_id
                          merged orders in
      map (fun r => merged_row (fst (fst (fst r))) (snd (fst (fst r)))
                               (snd r) (snd (fst r))) merged
  | Order_Product_Department =>
      let merged := merge op_order_id o_order_id order_products orders in
      let merged := merge (fun r => op_product_id (fst r)) p_product_id
                          merged products in
      let merged := merge (fun r => p_department_id (snd r)) d_department_id
                          merged departments in
      map (fun r => merged_row (fst (fst (fst r))) (snd (fst r))
                               (snd (fst (fst r))) (snd r)) merged
  | Department_Product_Order =>
      let prods := merge p_department_id d_department_id products departments in
      let merged := merge op_product_id (fun r => p_product_id (fst r))
                          order_products prods in
      let merged := merge (fun r => op_order_id (fst r)) o_order_id
                          merged orders in
      map (fun r => merged_row (fst (fst r)) (fst (snd (fst r)))
                               (snd r) (snd (snd (fst r)))) merged
  | Order_Department_Product =>
      let merged := merge op_order_id o_order_id order_products orders in
      let prods := merge p_department_id d_department_id products departments in
      let merged := merge (fun r => op_product_id (fst r))
                          (fun r => p_product_id (fst r)) merged prods in
      map (fun r => merged_row (fst (fst r)) (fst (snd r))
                               (snd (fst r)) (snd (snd r))) merged
  | Department_Order_Product =>
      let prods := merge p_department_id d_department_id products departments in
      let merged := merge op_order_id o_order_id order_products orders in
      let merged := merge (fun r => op_product_id (fst r))
                          (fun r => p_product_id (fst r)) merged prods in
      map (fun r => merged_row (fst (fst r)) (fst (snd r))
                               (snd (fst r)) (snd (snd r))) merged
  end.

(** The rows of a dimension table that a fact row, or a product, joins. *)
Definition products_of (products : list Product) (op : OrderProduct)
    : list Product :=
  filter (fun p => op_product_id op =? p_product_id p) products.

Definition orders_of (orders : list Order) (op : OrderProduct) : list Order :=
  filter (fun o => op_order_id op =? o_order_id o) orders.

Definition departments_of (departments : list Department) (p : Product)
    : list Department :=
  filter (fun d => p_department_id p =? d_department_id d) departments.

(** The columns a merged row takes from [order_products]. *)
Definition fact_of (r : MergedRow) : OrderProduct :=
  {| op_order_id := order_id r;
     op_product_id := product_id r;
     op_reordered := reordered r |}.

(** ** The fixture of the end-to-end example *)

Module Fixture.
Local Open Scope string_scope.

Definition order_products : list OrderProduct :=
  [ mkOrderProduct 1 10 1; mkOrderProduct 1 11 0; mkOrderProduct 2 10 1 ].

Definition products : list Product :=
  [ mkProduct 10 "Bananas" 1; mkProduct 11 "Milk" 2 ].

Definition departments : list Department :=
  [ mkDepartment 1 "produce"; mkDepartment 2 "dairy" ].

Definition orders : list Order :=
  [ mkOrder 1 9 0; mkOrder 2 15 0 ].

Definition merged : list MergedRow :=
  prepare_merged products orders order_products departments.
End Fixture.

(** * Properties *)

(** ** Lists *)

Section ListFacts.
Context {A : Type}.

Lemma filter_nil_iff (f : A -> bool) (l : list A) :
  filter f l = [] <-> forall x, In x l -> f x = false.
Proof.
  induction l as [|a l IH]; simpl.
  - split; [intros _ x [] | reflexivity].
  - destruct (f a) eqn:Ha.
    + split; [discriminate|].
      intros H. specialize (H a (or_introl eq_refl)). congruence.
    + rewrite IH. split.
      * intros H x [<-|Hx]; auto.
      * intros H x Hx. apply H. now right.
Qed.

Lemma firstn_succ_prefix (n : nat) (l : list A) :
  exists rest, firstn (S n) l = firstn n l ++ rest /\ (length rest <= 1)%nat.
Proof.
  revert l. induction n as [|n IH]; intros [|a l].
  - exists []. split; [reflexivity | simpl; lia].
  - exists [a]. split; [reflexivity | simpl; lia].
  - exists []. split; [reflexivity | simpl; lia].
  - destruct (IH l) as [rest [E Hlen]].
    exists rest. split; [|exact Hlen].
    change (a :: firstn (S n) l = a :: (firstn n l ++ rest)).
    now rewrite E.
Qed.
End ListFacts.

(** ** The filter stage *)

Lemma between_spec (x lo hi : Z) : between x lo hi = true <-> lo <= x <= hi.
Proof. unfold between. rewrite andb_true_iff, !Z.leb_le. tauto. Qed.

Lemma filter_data_In (merged : list MergedRow) (name : string) (lo hi : Z)
    (r : MergedRow) :
  In r (filter_data merged name (lo, hi)) <->
  In r merged /\ department r = name /\ lo <= order_hour_of_day r <= hi.
Proof.
  unfold filter_data. rewrite filter_In, andb_true_iff, String.eqb_eq,
    between_spec. reflexivity.
Qed.

(** The filter works row by row and keeps the order of the rows. *)
Lemma filter_data_app (m1 m2 : list MergedRow) (name : string)
    (hour_range : Z * Z) :
  filter_data (m1 ++ m2) name hour_range =
  filter_data m1 name hour_range ++ filter_data m2 name hour_range.
Proof. apply filter_app. Qed.

(** C4: [filter_data] returns exactly the rows of the merged table whose
    department is the selected one and whose hour lies in [[lo, hi]], both
    ends included; it returns the empty table when no row matches; rows at
    hour [lo] and [hi] are kept, rows at [lo - 1] and [hi + 1] are not. *)
Theorem filter_data_exact (merged : list MergedRow) (name : string)
    (lo hi : Z) :
  (forall r, In r (filter_data merged name (lo, hi)) <->
             In r merged /\ department r = name /\
             lo <= order_hour_of_day r <= hi) /\
  ((forall r, In r merged ->
              ~ (department r = name /\ lo <= order_hour_of_day r <= hi)) ->
   filter_data merged name (lo, hi) = []) /\
  (forall r, In r merged -> department r = name -> lo <= hi ->
             order_hour_of_day r = lo \/ order_hour_of_day r = hi ->
             In r (filter_data merged name (lo, hi))) /\
  (forall r, order_hour_of_day r = lo - 1 \/ order_hour_of_day r = hi + 1 ->
             ~ In r (filter_data merged name (lo, hi))).
Proof.
  split; [|split; [|split]].
  - intros r. apply filter_data_In.
  - intros H. unfold filter_data. apply filter_nil_iff. intros r Hr.
    apply not_true_is_false. intros E.
    apply (H r Hr). apply andb_true_iff in E. destruct E as [E1 E2].
    apply String.eqb_eq in E1. apply between_spec in E2. now split.
  - intros r Hr Hd Hle Hh. apply filter_data_In. repeat split; auto; lia.
  - intros r Hh Hin. apply filter_data_In in Hin. lia.
Qed.

Lemma filter_data_exact_witness :
  In (mkMergedRow 1 10 1 "Bananas" 1 9 0 "produce")
     (filter_data Fixture.merged "produce" (9, 15)) /\
  In (mkMergedRow 2 10 1 "Bananas" 1 15 0 "produce")
     (filter_data Fixture.merged "produce" (9, 15)) /\
  filter_data Fixture.merged "produce" (10, 14) = [].
Proof.
  destruct (filter_data_exact Fixture.merged "produce" 9 15)
    as [_ [_ [Hin _]]].
  destruct (filter_data_exact Fixture.merged "produce" 10 14)
    as [_ [Hnil _]].
  split; [|split].
  - apply Hin; simpl; try lia; auto.
  - apply Hin; simpl; try lia; auto.
  - apply Hnil. intros r Hr [_ Hh]. simpl in Hr.
    destruct Hr as [<-|[<-|[<-|[]]]]; simpl in Hh; lia.
Defined.

(** ** The end-to-end example *)

(** C7: on the fixture of the example, filtered to department "produce" and
    hours 0 to 23, Total Orders is 2, Average Basket Size is 1.0 and Top
    Reordered Product is "Bananas". *)
Theorem end_to_end_example :
  let filtered_df :=
    filter_data (prepare_merged Fixture.products Fixture.orders
                                Fixture.order_products Fixture.departments)
                "produce" (0, 23) in
  total_orders filtered_df = 2%nat /\
  avg_basket_size filtered_df = Num 1 /\
  top_product filtered_df = Ok "Bananas"%string.
Proof. vm_compute. repeat split. Qed.

(** ** Top-N *)

(** C8: the top-k reordered products are a prefix of the top-(k+1) ones, so
    every product shown for N = k is shown for N = k + 1. *)
Theorem top_products_monotone (filtered_df : list MergedRow) (k : nat) :
  (exists rest, top_products filtered_df (S k) =
                top_products filtered_df k ++ rest /\
                (length rest <= 1)%nat) /\
  (forall p, In p (map fst (top_products filtered_df k)) ->
             In p (map fst (top_products filtered_df (S k)))).
Proof.
  unfold top_products, head.
  destruct (firstn_succ_prefix k (value_counts (reordered_names filtered_df)))
    as [rest [E Hlen]].
  split.
  - now exists rest.
  - intros p Hp. rewrite E, map_app. apply in_or_app. now left.
Qed.

(** ** Empty selections *)

Lemma empty_frame_metrics :
  total_orders [] = 0%nat /\
  avg_basket_size [] = NaN /\
  top_product [] = Raise ValueError /\
  (forall n, top_products [] n = []) /\
  reorder_ratio [] = [].
Proof.
  repeat split. intros n. unfold top_products, head. simpl. now destruct n.
Qed.

(** Whenever the selection matches no row, the run ends in [ValueError]
    (raised by [idxmax]), after the mean of the basket sizes came out NaN. *)
Lemma page_empty_selection (merged : list MergedRow) (top_n : nat)
    (selected_dept : string) (hour_range : Z * Z) :
  filter_data merged selected_dept hour_range = [] ->
  avg_basket_size (filter_data merged selected_dept hour_range) = NaN /\
  page merged top_n selected_dept hour_range = Raise ValueError.
Proof.
  intros E. unfold page. rewrite E. split; reflexivity.
Qed.

(** C1: on an empty selection the code does not reach a well-defined empty
    state: with the example's tables, department "produce" and hours 10 to
    12 no row matches; Total Orders is 0, but Average Basket Size is NaN and
    Top Reordered Product raises [ValueError], which ends the run. *)
Theorem empty_selection_raises :
  let filtered_df := filter_data Fixture.merged "produce" (10, 12) in
  filtered_df = [] /\
  total_orders filtered_df = 0%nat /\
  avg_basket_size filtered_df = NaN /\
  top_product filtered_df = Raise ValueError /\
  page Fixture.merged 10 "produce" (10, 12) = Raise ValueError.
Proof. vm_compute. repeat split. Qed.

(** ** Reorder ratio by department *)

Lemma page_reorder_ratio (merged : list MergedRow) (top_n : nat)
    (selected_dept : string) (hour_range : Z * Z) (pg : Page) :
  page merged top_n selected_dept hour_range = Ok pg ->
  pg_reorder_ratio pg =
  reorder_ratio (filter_data merged selected_dept hour_range).
Proof.
  unfold page. destruct (top_product _); simpl; [|discriminate].
  intros E. injection E as <-. reflexivity.
Qed.

(** C2: the script computes the ratios over [filtered_df], not over
    [merged]: with the example's tables and department "produce" it shows the
    one ratio of "produce", while the ratios over the merged table are those
    of "produce" and "dairy". *)
Theorem reorder_ratio_of_filtered :
  (exists pg, page Fixture.merged 10 "produce" (0, 23) = Ok pg /\
              pg_reorder_ratio pg = [("produce"%string, Num 1)]) /\
  reorder_ratio Fixture.merged =
    [("produce"%string, Num 1); ("dairy"%string, Num 0)].
Proof.
  split.
  - eexists. split; [vm_compute; reflexivity | reflexivity].
  - vm_compute. reflexivity.
Qed.

(** ** Series operations *)

Section SortFacts.
Context {A : Type}.
Variable leb : A -> A -> bool.

Lemma insert_perm (x : A) (l : list A) : Permutation (insert leb x l) (x :: l).
Proof.
  induction l as [|y l IH]; simpl.
  - reflexivity.
  - destruct (leb x y).
    + reflexivity.
    + rewrite IH. apply perm_swap.
Qed.

Lemma sort_values_perm (l : list A) : Permutation (sort_values leb l) l.
Proof.
  induction l as [|x l IH]; simpl.
  - reflexivity.
  - rewrite insert_perm. now apply perm_skip.
Qed.

Lemma sort_values_In (x : A) (l : list A) :
  In x (sort_values leb l) <-> In x l.
Proof.
  split; apply Permutation_in;
    [apply sort_values_perm | symmetry; apply sort_values_perm].
Qed.
End SortFacts.

Section UniqueFacts.
Context {A : Type}.
Variable eqb : A -> A -> bool.
Hypothesis eqb_eq : forall x y, eqb x y = true <-> x = y.

Lemma unique_In (x : A) (l : list A) : In x (unique eqb l) <-> In x l.
Proof.
  induction l as [|a l IH]; simpl.
  - reflexivity.
  - rewrite filter_In, IH. split.
    + intros [H|[H _]]; auto.
    + intros [H|H]; auto.
      destruct (eqb a x) eqn:E.
      * left. now apply eqb_eq.
      * right. split; auto.
Qed.

Lemma unique_NoDup (l : list A) : NoDup (unique eqb l).
Proof.
  induction l as [|a l IH]; simpl.
  - constructor.
  - constructor.
    + rewrite filter_In. intros [_ H].
      apply negb_true_iff in H.
      assert (E : eqb a a = true) by now apply eqb_eq.
      congruence.
    + now apply NoDup_filter.
Qed.

Lemma count_pos (x : A) (l : list A) : In x l <-> (0 < count eqb x l)%nat.
Proof.
  unfold count. induction l as [|a l IH]; simpl.
  - split; [intros [] | lia].
  - destruct (eqb x a) eqn:E; simpl.
    + apply eqb_eq in E. split; [lia | auto].
    + rewrite <- IH. split; auto.
      intros [H|H]; auto. subst a.
      assert (eqb x x = true) by now apply eqb_eq. congruence.
Qed.
End UniqueFacts.

Lemma value_counts_In (l : list string) (k : string) (c : nat) :
  In (k, c) (value_counts l) <-> In k l /\ c = count String.eqb k l.
Proof.
  unfold value_counts. rewrite sort_values_In, in_map_iff. split.
  - intros [k' [E H]]. inversion E; subst.
    apply (proj1 (unique_In _ String.eqb_eq _ _)) in H. now split.
  - intros [H ->]. exists k. split; auto.
    now apply (unique_In _ String.eqb_eq).
Qed.

Lemma value_counts_nil (l : list string) : value_counts l = [] <-> l = [].
Proof.
  split.
  - intros E. destruct l as [|k l]; auto. exfalso.
    assert (H : In (k, count String.eqb k (k :: l)) (value_counts (k :: l))).
    { apply value_counts_In. split; [now left | reflexivity]. }
    rewrite E in H. destruct H.
  - intros ->. reflexivity.
Qed.

Lemma idxmax_from_max (best : string * nat) (l : list (string * nat)) :
  exists e, In e (best :: l) /\ idxmax_from best l = fst e /\
            forall e', In e' (best :: l) -> (snd e' <= snd e)%nat.
Proof.
  revert best. induction l as [|x l IH]; intros best; simpl.
  - exists best. split; [now left|]. split; auto.
    intros e' [<-|[]]. lia.
  - destruct (snd best <? snd x)%nat eqn:E.
    + apply Nat.ltb_lt in E.
      destruct (IH x) as [e [Hin [Heq Hmax]]].
      exists e. split; [now right|]. split; auto.
      intros e' [<-|H]; [|now apply Hmax].
      specialize (Hmax x (or_introl eq_refl)). lia.
    + apply Nat.ltb_ge in E.
      destruct (IH best) as [e [Hin [Heq Hmax]]].
      exists e. split; [destruct Hin; auto|]. split; auto.
      intros e' [<-|[<-|H]].
      * apply Hmax. now left.
      * specialize (Hmax best (or_introl eq_refl)). lia.
      * apply Hmax. now right.
Qed.

Lemma reordered_names_nil (filtered_df : list MergedRow) :
  reordered_names filtered_df = [] <->
  forall r, In r filtered_df -> reordered r <> 1.
Proof.
  unfold reordered_names. split.
  - intros E r Hr H1. apply map_eq_nil in E.
    rewrite filter_nil_iff in E. specialize (E r Hr).
    apply Z.eqb_neq in E. contradiction.
  - intros H. rewrite (proj2 (filter_nil_iff _ _)); auto.
    intros r Hr. apply Z.eqb_neq. now apply H.
Qed.

(** C3: Top Reordered Product is a most frequent product name among the rows
    with [reordered == 1]; when the subset has no such row the computation
    raises and returns no product. *)
Theorem top_product_most_frequent (filtered_df : list MergedRow) :
  ((forall r, In r filtered_df -> reordered r <> 1) ->
   top_product filtered_df = Raise ValueError) /\
  ((exists r, In r filtered_df /\ reordered r = 1) ->
   exists p, top_product filtered_df = Ok p /\
             In p (reordered_names filtered_df) /\
             forall q, (count String.eqb q (reordered_names filtered_df) <=
                        count String.eqb p (reordered_names filtered_df))%nat).
Proof.
  unfold top_product. split.
  - intros H. apply reordered_names_nil in H. now rewrite H.
  - intros [r [Hr H1]].
    set (names := reordered_names filtered_df).
    destruct (value_counts names) as [|x s] eqn:E.
    + apply value_counts_nil in E. unfold names in E.
      rewrite reordered_names_nil in E. now elim (E r Hr).
    + simpl. destruct (idxmax_from_max x s) as [[p c] [Hin [Heq Hmax]]].
      rewrite <- E in Hin, Hmax. apply value_counts_In in Hin.
      destruct Hin as [Hp ->]. exists p. split; [now rewrite Heq|].
      split; auto. intros q. simpl in Hmax.
      destruct (Nat.eq_dec (count String.eqb q names) 0) as [Z0|NZ]; [lia|].
      assert (Hq : In q names).
      { apply (count_pos _ String.eqb_eq). lia. }
      apply (Hmax (q, count String.eqb q names)).
      apply value_counts_In. now split.
Qed.

Lemma top_product_most_frequent_witness :
  top_product (filter_data Fixture.merged "dairy" (0, 23)) = Raise ValueError /\
  exists p, top_product (filter_data Fixture.merged "produce" (0, 23)) = Ok p.
Proof.
  split.
  - apply (proj1 (top_product_most_frequent _)).
    intros r Hr. simpl in Hr. destruct Hr as [<-|[]]. simpl. lia.
  - destruct (proj2 (top_product_most_frequent
                       (filter_data Fixture.merged "produce" (0, 23))))
      as [p [Hp _]].
    + eexists. split; [simpl; left; reflexivity | reflexivity].
    + now exists p.
Defined.

(** ** Group means *)

Lemma groupby_In {A K : Type} (eqb leb : K -> K -> bool) (key : A -> K)
    (eqb_eq : forall x y, eqb x y = true <-> x = y)
    (df : list A) (k : K) (g : list A) :
  In (k, g) (groupby eqb leb key df) <->
  In k (map key df) /\ g = filter (fun r => eqb (key r) k) df.
Proof.
  unfold groupby. rewrite in_map_iff. split.
  - intros [k' [E H]]. inversion E; subst.
    apply sort_values_In in H.
    apply (proj1 (unique_In _ eqb_eq _ _)) in H. now split.
  - intros [H ->]. exists k. split; auto.
    apply sort_values_In. now apply (unique_In _ eqb_eq).
Qed.

Lemma sum_flags (l : list Z) :
  (forall x, In x l -> x = 0 \/ x = 1) ->
  0 <= sum l <= Z.of_nat (length l).
Proof.
  induction l as [|a l IH]; intros H.
  - simpl. lia.
  - assert (Ha : a = 0 \/ a = 1) by (apply H; now left).
    assert (IH' : 0 <= sum l <= Z.of_nat (length l)).
    { apply IH. intros x Hx. apply H. now right. }
    change (sum (a :: l)) with (a + sum l).
    change (length (a :: l)) with (S (length l)). lia.
Qed.

Lemma mean_flags (l : list Z) :
  l <> [] -> (forall x, In x l -> x = 0 \/ x = 1) ->
  exists q, mean l = Num q /\ (0 <= q <= 1)%Q.
Proof.
  intros Hne H. destruct l as [|a l]; [congruence|].
  unfold mean. eexists. split; [reflexivity|].
  pose proof (sum_flags (a :: l) H) as Hs.
  set (s := sum (a :: l)) in *. set (n := Z.of_nat (length (a :: l))) in *.
  assert (Hn : 0 < n) by (unfold n; simpl; lia).
  rewrite Qred_correct.
  clearbody s n.
  assert (Hn' : (0 < inject_Z n)%Q) by (unfold Qlt; simpl; lia).
  split.
  - apply Qle_shift_div_l; auto. unfold Qle. simpl.
    rewrite Z.mul_1_r. apply Hs.
  - apply Qle_shift_div_r; auto. unfold Qle. simpl.
    rewrite Z.mul_1_r. destruct n; try apply Hs; lia.
Qed.

(** C9: when the reordered flag of every row is 0 or 1, every ratio in the
    Reorder Ratio by Department result is a number between 0 and 1. *)
Theorem reorder_ratio_bounds (df : list MergedRow) :
  (forall r, In r df -> reordered r = 0 \/ reordered r = 1) ->
  forall d v, In (d, v) (reorder_ratio df) ->
  exists q, v = Num q /\ (0 <= q <= 1)%Q.
Proof.
  intros Hflag d v Hin. unfold reorder_ratio in Hin.
  apply sort_values_In in Hin. apply in_map_iff in Hin.
  destruct Hin as [[k g] [E Hg]]. simpl in E. inversion E; subst.
  apply (groupby_In _ _ _ String.eqb_eq) in Hg. destruct Hg as [Hd ->].
  apply in_map_iff in Hd. destruct Hd as [r [Hr Hin]].
  apply mean_flags.
  - intros E0. apply map_eq_nil in E0.
    rewrite filter_nil_iff in E0. specialize (E0 r Hin).
    rewrite Hr, String.eqb_refl in E0. discriminate.
  - intros x Hx. apply in_map_iff in Hx. destruct Hx as [r' [<- Hr']].
    apply filter_In in Hr'. apply Hflag. tauto.
Qed.

Lemma reorder_ratio_bounds_witness :
  exists q, Num 1 = Num q /\ (0 <= q <= 1)%Q.
Proof.
  apply (reorder_ratio_bounds
           (filter_data Fixture.merged "produce" (0, 23))) with
    (d := "produce"%string).
  - intros r Hr. simpl in Hr. destruct Hr as [<-|[<-|[]]]; simpl; auto.
  - vm_compute. left. reflexivity.
Defined.

(** ** The department options *)

Lemma dept_options_In (merged : list MergedRow) (d : string) :
  In d (dept_options merged) <-> exists r, In r merged /\ department r = d.
Proof.
  unfold dept_options. rewrite (unique_In _ String.eqb_eq), in_map_iff.
  split; intros [r H]; exists r; tauto.
Qed.

(** C10: the select box offers exactly the distinct department names of the
    merged table; when every hour lies in 0..23, filtering a selectable
    department over the full hour range leaves at least one row, so an empty
    subset needs a narrowed range. *)
Theorem selectable_department_nonempty (merged : list MergedRow) :
  (forall d, In d (selectbox_options merged) <->
             exists r, In r merged /\ department r = d) /\
  NoDup (selectbox_options merged) /\
  ((forall r, In r merged -> 0 <= order_hour_of_day r <= 23) ->
   forall d, In d (selectbox_options merged) ->
   filter_data merged d (0, 23) <> [] /\
   forall lo hi, filter_data merged d (lo, hi) = [] -> 0 < lo \/ hi < 23).
Proof.
  assert (Hopt : forall d, In d (selectbox_options merged) <->
                           exists r, In r merged /\ department r = d).
  { intros d. unfold selectbox_options, sorted.
    rewrite sort_values_In. apply dept_options_In. }
  split; [exact Hopt|]. split.
  - unfold selectbox_options, sorted.
    apply (Permutation_NoDup (l := dept_options merged)).
    + symmetry. apply sort_values_perm.
    + apply (unique_NoDup _ String.eqb_eq).
  - intros Hh d Hd. apply Hopt in Hd. destruct Hd as [r [Hr Hdep]].
    split.
    + intros E.
      assert (H : In r (filter_data merged d (0, 23))).
      { apply filter_data_In. split; auto. }
      rewrite E in H. destruct H.
    + intros lo hi E.
      destruct (Z_lt_le_dec 0 lo) as [?|Hlo]; [now left|].
      destruct (Z_lt_le_dec hi 23) as [?|Hhi]; [now right|].
      exfalso.
      assert (H : In r (filter_data merged d (lo, hi))).
      { apply filter_data_In. specialize (Hh r Hr). repeat split; auto; lia. }
      rewrite E in H. destruct H.
Qed.

Lemma selectable_department_nonempty_witness :
  filter_data Fixture.merged "dairy" (0, 23) <> [].
Proof.
  destruct (selectable_department_nonempty Fixture.merged) as [_ [_ H]].
  apply H.
  - intros r Hr. simpl in Hr.
    destruct Hr as [<-|[<-|[<-|[]]]]; simpl; lia.
  - vm_compute. left. reflexivity.
Defined.

(** ** The join engine *)

Section MergeFacts.
Context {A B : Type}.
Variables (key_l : A -> Z) (key_r : B -> Z).

Lemma merge_In (left : list A) (right : list B) (a : A) (b : B) :
  In (a, b) (merge key_l key_r left right) <->
  In a left /\ In b right /\ key_l a = key_r b.
Proof.
  unfold merge. rewrite in_flat_map. split.
  - intros [a' [Ha H]]. apply in_map_iff in H.
    destruct H as [b' [E Hb]]. inversion E; subst.
    apply filter_In in Hb. destruct Hb as [Hb Hk].
    apply Z.eqb_eq in Hk. auto.
  - intros [Ha [Hb Hk]]. exists a. split; auto.
    apply in_map. apply filter_In. split; auto. now apply Z.eqb_eq.
Qed.

Lemma merge_app (l1 l2 : list A) (right : list B) :
  merge key_l key_r (l1 ++ l2) right =
  merge key_l key_r l1 right ++ merge key_l key_r l2 right.
Proof. apply flat_map_app. Qed.

Lemma merge_length (left : list A) (right : list B) :
  (forall a, In a left ->
             length (filter (fun b => key_l a =? key_r b) right) = 1%nat) ->
  length (merge key_l key_r left right) = length left.
Proof.
  induction left as [|a left IH]; intros H; simpl.
  - reflexivity.
  - rewrite length_app, length_map, H by now left.
    rewrite IH; auto. intros a' Ha'. apply H. now right.
Qed.
End MergeFacts.

Section KeyFacts.
Context {B : Type}.
Variable key : B -> Z.

Lemma absent_key_no_match (k : Z) (right : list B) :
  existsb (Z.eqb k) (map key right) = false ->
  filter (fun b => k =? key b) right = [].
Proof.
  induction right as [|b right IH]; simpl; auto.
  intros H. apply orb_false_iff in H. destruct H as [H1 H2].
  rewrite H1. auto.
Qed.

(** A key that occurs in a table with distinct keys matches one row. *)
Lemma unique_key_one_match (k : Z) (right : list B) :
  distinct (map key right) = true ->
  existsb (fun b => k =? key b) right = true ->
  length (filter (fun b => k =? key b) right) = 1%nat.
Proof.
  induction right as [|b right IH]; simpl; [discriminate|].
  intros Hd He. apply andb_true_iff in Hd. destruct Hd as [Hn Hd].
  apply negb_true_iff in Hn.
  destruct (k =? key b) eqn:E.
  - apply Z.eqb_eq in E. subst k.
    rewrite absent_key_no_match; auto.
  - simpl in He. auto.
Qed.
End KeyFacts.

Lemma referential_integrity_spec (products : list Product)
    (orders : list Order) (order_products : list OrderProduct)
    (departments : list Department) :
  referential_integrity products orders order_products departments = true ->
  forall op, In op order_products ->
    existsb (fun p => op_product_id op =? p_product_id p) products = true /\
    existsb (fun o => op_order_id op =? o_order_id o) orders = true /\
    forall p, In p products -> op_product_id op = p_product_id p ->
      existsb (fun d => p_department_id p =? d_department_id d) departments
      = true.
Proof.
  unfold referential_integrity. intros H op Hop.
  rewrite forallb_forall in H. specialize (H op Hop).
  apply andb_true_iff in H. destruct H as [H H3].
  apply andb_true_iff in H. destruct H as [H1 H2].
  repeat split; auto.
  intros p Hp E. rewrite forallb_forall in H3. specialize (H3 p Hp).
  apply Z.eqb_eq in E. rewrite E in H3. exact H3.
Qed.

(** C5: when the dimension tables have unique keys and the fact table has
    full referential integrity, the merged table has exactly as many rows
    as [order_products]. *)
Theorem join_cardinality (products : list Product) (orders : list Order)
    (order_products : list OrderProduct) (departments : list Department) :
  unique_keys products orders departments = true ->
  referential_integrity products orders order_products departments = true ->
  length (prepare_merged products orders order_products departments) =
  length order_products.
Proof.
  intros Hu Hri. unfold unique_keys in Hu.
  apply andb_true_iff in Hu. destruct Hu as [Hu Hud].
  apply andb_true_iff in Hu. destruct Hu as [Hup Huo].
  pose proof (referential_integrity_spec _ _ _ _ Hri) as Hspec.
  unfold prepare_merged. rewrite length_map.
  rewrite merge_length.
  - rewrite merge_length.
    + apply merge_length. intros op Hop.
      apply unique_key_one_match; auto. now apply Hspec.
    + intros [op p] H. apply merge_In in H. destruct H as [Hop _].
      apply unique_key_one_match; auto. now apply Hspec.
  - intros [[op p] o] H. apply merge_In in H. destruct H as [H _].
    apply merge_In in H. destruct H as [Hop [Hp E]].
    apply unique_key_one_match; auto. simpl.
    now apply (Hspec op Hop).
Qed.

Lemma join_cardinality_witness :
  length Fixture.merged = 3%nat.
Proof.
  apply (join_cardinality Fixture.products Fixture.orders
                          Fixture.order_products Fixture.departments).
  - vm_compute. reflexivity.
  - vm_compute. reflexivity.
Defined.

(** Without unique keys a row of [order_products] can match twice. *)
Example duplicate_key_multiplies_rows :
  let products := [mkProduct 10 "Bananas" 1; mkProduct 10 "Bananas" 1;
                   mkProduct 11 "Milk" 2] in
  referential_integrity products Fixture.orders Fixture.order_products
                        Fixture.departments = true /\
  length (prepare_merged products Fixture.orders Fixture.order_products
                         Fixture.departments) = 5%nat.
Proof. vm_compute. split; reflexivity. Qed.

(** ** Join order *)

Section FlatMapFacts.
Context {A B C : Type}.

Lemma flat_map_bind (f : A -> list B) (g : B -> list C) (l : list A) :
  flat_map g (flat_map f l) = flat_map (fun x => flat_map g (f x)) l.
Proof.
  induction l as [|a l IH]; simpl; auto.
  now rewrite flat_map_app, IH.
Qed.

Lemma flat_map_of_map (f : A -> B) (g : B -> list C) (l : list A) :
  flat_map g (map f l) = flat_map (fun x => g (f x)) l.
Proof. induction l as [|a l IH]; simpl; auto. now rewrite IH. Qed.

Lemma map_of_flat_map (f : A -> list B) (h : B -> C) (l : list A) :
  map h (flat_map f l) = flat_map (fun x => map h (f x)) l.
Proof.
  induction l as [|a l IH]; simpl; auto.
  now rewrite map_app, IH.
Qed.

Lemma map_singletons (f : A -> B) (l : list A) :
  map f l = flat_map (fun x => [f x]) l.
Proof. induction l as [|a l IH]; simpl; [|rewrite IH]; reflexivity. Qed.

Lemma flat_map_perm_pointwise (f g : A -> list B) (l : list A) :
  (forall x, Permutation (f x) (g x)) ->
  Permutation (flat_map f l) (flat_map g l).
Proof.
  intros H. induction l as [|a l IH]; simpl.
  - constructor.
  - now apply Permutation_app.
Qed.

Lemma flat_map_split (f h : A -> list B) (l : list A) :
  Permutation (flat_map (fun y => f y ++ h y) l)
              (flat_map f l ++ flat_map h l).
Proof.
  induction l as [|a l IH]; simpl; [constructor|].
  rewrite IH, <- !app_assoc. apply Permutation_app_head.
  rewrite !app_assoc. apply Permutation_app_tail.
  apply Permutation_app_comm.
Qed.

End FlatMapFacts.

Section LoopSwap.
Context {A B C : Type}.

(** Two nested loops can be exchanged, up to the order of the rows. *)
Lemma flat_map_swap (g : A -> B -> list C) (xs : list A) (ys : list B) :
  Permutation (flat_map (fun x => flat_map (fun y => g x y) ys) xs)
              (flat_map (fun y => flat_map (fun x => g x y) xs) ys).
Proof.
  induction xs as [|x xs IH]; simpl.
  - induction ys as [|y ys IHy]; simpl; auto.
  - rewrite IH. symmetry. apply flat_map_split.
Qed.
End LoopSwap.

(** Filtering a join on a column of its left table filters that table. *)
Lemma filter_merge_left {A B : Type} (key_l : A -> Z) (key_r : B -> Z)
    (q : A -> bool) (left : list A) (right : list B) :
  filter (fun r => q (fst r)) (merge key_l key_r left right) =
  merge key_l key_r (filter q left) right.
Proof.
  induction left as [|a left IH]; simpl; auto.
  rewrite filter_app, IH.
  assert (E : forall l : list B,
             filter (fun r : A * B => q (fst r)) (map (pair a) l) =
             if q a then map (pair a) l else []).
  { induction l as [|b l IHl]; simpl.
    - now destruct (q a).
    - rewrite IHl. now destruct (q a). }
  rewrite E. now destruct (q a).
Qed.

Section JoinOrder.
Variables (products : list Product) (orders : list Order)
          (departments : list Department).

Lemma prepare_merged_loops (order_products : list OrderProduct) :
  prepare_merged products orders order_products departments =
  flat_map (fun op =>
    flat_map (fun p =>
      flat_map (fun o =>
        flat_map (fun d => [merged_row op p o d])
                 (departments_of departments p))
               (orders_of orders op))
             (products_of products op))
    order_products.
Proof.
  unfold prepare_merged, merge.
  rewrite map_of_flat_map, !flat_map_bind. apply flat_map_ext. intros op.
  rewrite !flat_map_of_map. apply flat_map_ext. intros p.
  rewrite flat_map_of_map. apply flat_map_ext. intros o.
  rewrite map_map. apply map_singletons.
Qed.

Lemma product_department_order_loops (order_products : list OrderProduct) :
  prepare_merged_in Product_Department_Order products orders order_products
                    departments =
  flat_map (fun op =>
    flat_map (fun p =>
      flat_map (fun d =>
        flat_map (fun o => [merged_row op p o d])
                 (orders_of orders op))
               (departments_of departments p))
             (products_of products op))
    order_products.
Proof.
  unfold prepare_merged_in, merge.
  rewrite map_of_flat_map, !flat_map_bind. apply flat_map_ext. intros op.
  rewrite !flat_map_of_map. apply flat_map_ext. intros p.
  rewrite flat_map_of_map. apply flat_map_ext. intros d.
  rewrite map_map. apply map_singletons.
Qed.

Lemma order_product_department_loops (order_products : list OrderProduct) :
  prepare_merged_in Order_Product_Department products orders order_products
                    departments =
  flat_map (fun op =>
    flat_map (fun o =>
      flat_map (fun p =>
        flat_map (fun d => [merged_row op p o d])
                 (departments_of departments p))
               (products_of products op))
             (orders_of orders op))
    order_products.
Proof.
  unfold prepare_merged_in, merge.
  rewrite map_of_flat_map, !flat_map_bind. apply flat_map_ext. intros op.
  rewrite !flat_map_of_map. apply flat_map_ext. intros o.
  rewrite flat_map_of_map. apply flat_map_ext. intros p.
  rewrite map_map. apply map_singletons.
Qed.

(** The products matching a fact row, each with its departments. *)
Lemma products_with_departments (op : OrderProduct) :
  filter (fun r : Product * Department =>
            op_product_id op =? p_product_id (fst r))
         (merge p_department_id d_department_id products departments) =
  flat_map (fun p => map (pair p) (departments_of departments p))
           (products_of products op).
Proof.
  apply (filter_merge_left p_department_id d_department_id
           (fun p => op_product_id op =? p_product_id p)).
Qed.

Lemma department_product_order_loops (order_products : list OrderProduct) :
  prepare_merged_in Department_Product_Order products orders order_products
                    departments =
  flat_map (fun op =>
    flat_map (fun p =>
      flat_map (fun d =>
        flat_map (fun o => [merged_row op p o d])
                 (orders_of orders op))
               (departments_of departments p))
             (products_of products op))
    order_products.
Proof.
  unfold prepare_merged_in.
  unfold merge at 1 2.
  rewrite map_of_flat_map, !flat_map_bind. apply flat_map_ext. intros op.
  rewrite products_with_departments.
  rewrite !flat_map_of_map, flat_map_bind. apply flat_map_ext. intros p.
  rewrite flat_map_of_map. apply flat_map_ext. intros d.
  rewrite map_map. apply map_singletons.
Qed.

Lemma order_department_product_loops (order_products : list OrderProduct) :
  prepare_merged_in Order_Department_Product products orders order_products
                    departments =
  flat_map (fun op =>
    flat_map (fun o =>
      flat_map (fun p =>
        flat_map (fun d => [merged_row op p o d])
                 (departments_of departments p))
               (products_of products op))
             (orders_of orders op))
    order_products.
Proof.
  unfold prepare_merged_in.
  unfold merge at 1 2.
  rewrite map_of_flat_map, !flat_map_bind. apply flat_map_ext. intros op.
  rewrite !flat_map_of_map. apply flat_map_ext. intros o.
  simpl. rewrite products_with_departments.
  rewrite !map_of_flat_map. apply flat_map_ext. intros p.
  rewrite !map_map. apply map_singletons.
Qed.
End JoinOrder.

(** C6: in whichever order the three joins are applied, the merged table
    holds the same rows as the one [prepare_merged] builds, up to the order
    of the rows. *)
Theorem join_order_independent (jo : join_order) (products : list Product)
    (orders : list Order) (order_products : list OrderProduct)
    (departments : list Department) :
  Permutation
    (prepare_merged_in jo products orders order_products departments)
    (prepare_merged products orders order_products departments).
Proof.
  rewrite prepare_merged_loops.
  destruct jo.
  - change (prepare_merged_in Product_Order_Department products orders
                              order_products departments)
      with (prepare_merged products orders order_products departments).
    now rewrite prepare_merged_loops.
  - rewrite product_department_order_loops.
    apply flat_map_perm_pointwise. intros op.
    apply flat_map_perm_pointwise. intros p.
    apply (flat_map_swap (fun d o => [merged_row op p o d])).
  - rewrite order_product_department_loops.
    apply flat_map_perm_pointwise. intros op.
    apply (flat_map_swap
             (fun o p =>
                flat_map (fun d => [merged_row op p o d])
                         (departments_of departments p))).
  - rewrite order_department_product_loops.
    apply flat_map_perm_pointwise. intros op.
    apply (flat_map_swap
             (fun o p =>
                flat_map (fun d => [merged_row op p o d])
                         (departments_of departments p))).
  - rewrite department_product_order_loops.
    apply flat_map_perm_pointwise. intros op.
    apply flat_map_perm_pointwise. intros p.
    apply (flat_map_swap (fun d o => [merged_row op p o d])).
  - change (prepare_merged_in Department_Order_Product products orders
                              order_products departments)
      with (prepare_merged_in Order_Department_Product products orders
                              order_products departments).
    rewrite order_department_product_loops.
    apply flat_map_perm_pointwise. intros op.
    apply (flat_map_swap
             (fun o p =>
                flat_map (fun d => [merged_row op p o d])
                         (departments_of departments p))).
Qed.

(** * Further properties of the pipeline *)

(** ** Composing and widening filters *)

Lemma filter_twice {A : Type} (f g : A -> bool) (l : list A) :
  filter f (filter g l) = filter (fun x => g x && f x) l.
Proof.
  induction l as [|a l IH]; simpl; [reflexivity|].
  destruct (g a); simpl; [destruct (f a)|]; now rewrite IH.
Qed.

Lemma between_max_min (x lo hi lo' hi' : Z) :
  between x lo hi && between x lo' hi' =
  between x (Z.max lo lo') (Z.min hi hi').
Proof.
  apply eq_true_iff_eq. rewrite andb_true_iff, !between_spec. lia.
Qed.

(** Filtering a filtered table again for the same department keeps the rows
    whose hour lies in both ranges; the same selection twice changes
    nothing. *)
Theorem filter_data_compose (merged : list MergedRow) (dept : string)
    (lo hi lo' hi' : Z) :
  filter_data (filter_data merged dept (lo, hi)) dept (lo', hi') =
  filter_data merged dept (Z.max lo lo', Z.min hi hi') /\
  filter_data (filter_data merged dept (lo, hi)) dept (lo, hi) =
  filter_data merged dept (lo, hi).
Proof.
  assert (E : forall a b,
             filter_data (filter_data merged dept (lo, hi)) dept (a, b) =
             filter_data merged dept (Z.max lo a, Z.min hi b)).
  { intros a b. unfold filter_data. rewrite filter_twice.
    apply filter_ext. intros r. simpl.
    rewrite <- between_max_min.
    destruct (String.eqb (department r) dept); simpl; [reflexivity|].
    reflexivity. }
  split; [apply E|].
  rewrite E, Z.max_id, Z.min_id. reflexivity.
Qed.

Lemma nunique_incl (l l' : list Z) :
  incl l l' -> (nunique Z.eqb l <= nunique Z.eqb l')%nat.
Proof.
  intros H. unfold nunique. apply NoDup_incl_length.
  - apply (unique_NoDup _ Z.eqb_eq).
  - intros x Hx. apply (unique_In _ Z.eqb_eq).
    apply H. exact (proj1 (unique_In _ Z.eqb_eq _ _) Hx).
Qed.

(** Widening the hour range loses no row and never lowers Total Orders. *)
Theorem widen_hour_range (merged : list MergedRow) (dept : string)
    (lo hi lo' hi' : Z) :
  lo' <= lo -> hi <= hi' ->
  incl (filter_data merged dept (lo, hi)) (filter_data merged dept (lo', hi'))
  /\ Nat.le (total_orders (filter_data merged dept (lo, hi)))
            (total_orders (filter_data merged dept (lo', hi'))).
Proof.
  intros Hlo Hhi.
  assert (Hincl : incl (filter_data merged dept (lo, hi))
                       (filter_data merged dept (lo', hi'))).
  { intros r Hr. apply filter_data_In in Hr. apply filter_data_In.
    repeat split; try tauto; lia. }
  split; [exact Hincl|].
  unfold total_orders. apply nunique_incl. now apply incl_map.
Qed.

Lemma widen_hour_range_witness :
  Nat.le (total_orders (filter_data Fixture.merged "produce" (9, 10)))
         (total_orders (filter_data Fixture.merged "produce" (0, 23))).
Proof.
  apply (widen_hour_range Fixture.merged "produce" 9 10 0 23); lia.
Defined.

(** ** The chart of the fifth tab *)

Lemma NoDup_constant_length {A : Type} (d : A) (l : list A) :
  NoDup l -> (forall x, In x l -> x = d) -> (length l <= 1)%nat.
Proof.
  intros Hnd H. destruct l as [|a [|b l]]; simpl; try lia.
  exfalso. inversion Hnd as [|? ? Hnotin _]. apply Hnotin.
  rewrite (H a), (H b); simpl; auto.
Qed.

(** The reorder-ratio series of a run holds at most one entry, and its
    label is the selected department. *)
Lemma reorder_ratio_single_department (merged : list MergedRow)
    (selected_dept : string) (hour_range : Z * Z) :
  (length (reorder_ratio (filter_data merged selected_dept hour_range)) <= 1)%nat
  /\ forall k v,
       In (k, v) (reorder_ratio (filter_data merged selected_dept hour_range)) ->
       k = selected_dept.
Proof.
  set (df := filter_data merged selected_dept hour_range).
  assert (Hdept : forall k, In k (map department df) -> k = selected_dept).
  { intros k Hk. apply in_map_iff in Hk. destruct Hk as [r [<- Hr]].
    unfold df, filter_data in Hr. apply filter_In in Hr.
    destruct Hr as [_ Hr]. apply andb_true_iff in Hr.
    now apply String.eqb_eq. }
  split.
  - unfold reorder_ratio, groupby.
    rewrite (Permutation_length (sort_values_perm _ _)), !length_map.
    rewrite (Permutation_length (sort_values_perm _ _)).
    apply (NoDup_constant_length selected_dept).
    + apply (unique_NoDup _ String.eqb_eq).
    + intros k Hk. apply Hdept.
      exact (proj1 (unique_In _ String.eqb_eq _ _) Hk).
  - intros k v Hin. unfold reorder_ratio in Hin.
    apply sort_values_In in Hin. apply in_map_iff in Hin.
    destruct Hin as [[k' g] [E Hg]]. simpl in E. inversion E; subst.
    apply (groupby_In _ _ _ String.eqb_eq) in Hg. now apply Hdept.
Qed.

(** ** Rows of the merged table *)

Lemma prepare_merged_In (products : list Product) (orders : list Order)
    (order_products : list OrderProduct) (departments : list Department)
    (r : MergedRow) :
  In r (prepare_merged products orders order_products departments) <->
  exists op p o d,
    In op order_products /\ In p products /\ In o orders /\
    In d departments /\
    op_product_id op = p_product_id p /\
    op_order_id op = o_order_id o /\
    p_department_id p = d_department_id d /\
    r = merged_row op p o d.
Proof.
  unfold prepare_merged. rewrite in_map_iff. split.
  - intros [[[[op p] o] d] [E H]]. simpl in E.
    apply merge_In in H. destruct H as [H [Hd Ed]].
    apply merge_In in H. destruct H as [H [Ho Eo]].
    apply merge_In in H. destruct H as [Hop [Hp Ep]].
    exists op, p, o, d. simpl in *. repeat split; auto.
  - intros [op [p [o [d [Hop [Hp [Ho [Hd [Ep [Eo [Ed ->]]]]]]]]]]].
    exists (op, p, o, d). split; [reflexivity|].
    apply merge_In. split; [|split]; auto.
    apply merge_In. split; [|split]; auto.
    apply merge_In. split; [|split]; auto.
Qed.

Lemma fact_of_merged_row (op : OrderProduct) (p : Product) (o : Order)
    (d : Department) :
  fact_of (merged_row op p o d) = op.
Proof. now destruct op. Qed.

(** A fact row whose product is missing from [products] is dropped: no
    merged row carries its columns. *)
Theorem orphan_product_dropped (products : list Product)
    (orders : list Order) (order_products : list OrderProduct)
    (departments : list Department) (op : OrderProduct) :
  (forall p, In p products -> p_product_id p <> op_product_id op) ->
  forall r, In r (prepare_merged products orders order_products departments) ->
            fact_of r <> op.
Proof.
  intros Horphan r Hr E. apply prepare_merged_In in Hr.
  destruct Hr as [op' [p [o [d [_ [Hp [_ [_ [Ep [_ [_ ->]]]]]]]]]]].
  rewrite fact_of_merged_row in E. subst op'.
  now apply (Horphan p Hp).
Qed.

Lemma orphan_product_dropped_witness :
  ~ In (mkOrderProduct 2 12 1)
       (map fact_of
            (prepare_merged Fixture.products Fixture.orders
                            (mkOrderProduct 2 12 1 :: Fixture.order_products)
                            Fixture.departments)).
Proof.
  intros H. apply in_map_iff in H. destruct H as [r [E Hr]].
  apply (orphan_product_dropped Fixture.products Fixture.orders
           (mkOrderProduct 2 12 1 :: Fixture.order_products)
           Fixture.departments (mkOrderProduct 2 12 1)) with (r := r).
  - intros p Hp. simpl in Hp. destruct Hp as [<-|[<-|[]]]; simpl; lia.
  - exact Hr.
  - exact E.
Defined.

Section OneMatch.
Context {A B : Type}.
Variables (key_l : A -> Z) (key_r : B -> Z).

(** When every left row has exactly one partner, the join keeps the left
    rows, in their order. *)
Lemma merge_fst_one_match (left : list A) (right : list B) :
  (forall a, In a left ->
             length (filter (fun b => key_l a =? key_r b) right) = 1%nat) ->
  map fst (merge key_l key_r left right) = left.
Proof.
  induction left as [|a left IH]; intros H; simpl; [reflexivity|].
  rewrite map_app, map_map. simpl.
  specialize (H a (or_introl eq_refl)) as Ha.
  destruct (filter (fun b => key_l a =? key_r b) right) as [|b [|b' l]];
    try discriminate.
  simpl. f_equal. apply IH. intros a' Ha'. apply H. now right.
Qed.
End OneMatch.

(** With unique keys and referential integrity the merged table carries
    the rows of [order_products], one for one and in the same order. *)
Theorem merged_keeps_fact_rows (products : list Product)
    (orders : list Order) (order_products : list OrderProduct)
    (departments : list Department) :
  unique_keys products orders departments = true ->
  referential_integrity products orders order_products departments = true ->
  map fact_of (prepare_merged products orders order_products departments) =
  order_products.
Proof.
  intros Hu Hri. unfold unique_keys in Hu.
  apply andb_true_iff in Hu. destruct Hu as [Hu Hud].
  apply andb_true_iff in Hu. destruct Hu as [Hup Huo].
  pose proof (referential_integrity_spec _ _ _ _ Hri) as Hspec.
  unfold prepare_merged. rewrite map_map.
  rewrite (map_ext _ (fun r => fst (fst (fst r))))
    by (intros r; apply fact_of_merged_row).
  rewrite <- (map_map (fun r => fst (fst r)) fst).
  rewrite <- (map_map fst fst).
  rewrite merge_fst_one_match.
  - rewrite merge_fst_one_match.
    + apply merge_fst_one_match. intros op Hop.
      apply unique_key_one_match; auto. now apply Hspec.
    + intros [op p] H. apply merge_In in H. destruct H as [Hop _].
      apply unique_key_one_match; auto. now apply Hspec.
  - intros [[op p] o] H. apply merge_In in H. destruct H as [H _].
    apply merge_In in H. destruct H as [Hop [Hp E]].
    apply unique_key_one_match; auto. simpl.
    now apply (Hspec op Hop).
Qed.

Lemma merged_keeps_fact_rows_witness :
  map fact_of Fixture.merged = Fixture.order_products.
Proof.
  apply (merged_keeps_fact_rows Fixture.products Fixture.orders
                                Fixture.order_products Fixture.departments).
  - vm_compute. reflexivity.
  - vm_compute. reflexivity.
Defined.

(** When one of the four tables is empty the merged table is empty, no
    department can be selected, and every run ends in [ValueError]. *)
Theorem empty_table_empty_page (products : list Product)
    (orders : list Order) (order_products : list OrderProduct)
    (departments : list Department) :
  products = [] \/ orders = [] \/ order_products = [] \/ departments = [] ->
  let merged := prepare_merged products orders order_products departments in
  merged = [] /\
  selectbox_options merged = [] /\
  forall top_n selected_dept hour_range,
    page merged top_n selected_dept hour_range = Raise ValueError.
Proof.
  intros H merged.
  assert (E : merged = []).
  { destruct merged as [|r l] eqn:Em; [reflexivity|]. exfalso.
    assert (Hr : In r merged) by (rewrite Em; now left).
    apply prepare_merged_In in Hr.
    destruct Hr as [op [p [o [d [Hop [Hp [Ho [Hd _]]]]]]]].
    destruct H as [-> | [-> | [-> | ->]]]; contradiction. }
  rewrite E. repeat split.
Qed.

Lemma empty_table_empty_page_witness :
  page (prepare_merged Fixture.products [] Fixture.order_products
                       Fixture.departments) 10 "produce" (0, 23) =
  Raise ValueError.
Proof.
  destruct (empty_table_empty_page Fixture.products []
              Fixture.order_products Fixture.departments) as [_ [_ H]].
  - right. left. reflexivity.
  - apply H.
Defined.

(** A merged row is a fact row together with the product, the order and
    the department its keys point to, and every such combination is a row. *)
Theorem merged_rows_exact (products : list Product) (orders : list Order)
    (order_products : list OrderProduct) (departments : list Department)
    (r : MergedRow) :
  In r (prepare_merged products orders order_products departments) <->
  exists op p o d,
    In op order_products /\ In p products /\ In o orders /\
    In d departments /\
    op_product_id op = p_product_id p /\
    op_order_id op = o_order_id o /\
    p_department_id p = d_department_id d /\
    r = merged_row op p o d.
Proof. apply prepare_merged_In. Qed.

(** ** Sorted series *)

Section SortedFacts.
Context {A : Type}.
Variable leb : A -> A -> bool.
Hypothesis leb_total : forall x y, leb x y = true \/ leb y x = true.

Lemma insert_sorted (x : A) (l : list A) :
  Sorted (fun a b => leb a b = true) l ->
  Sorted (fun a b => leb a b = true) (insert leb x l).
Proof.
  induction l as [|y l IH]; intros Hs; simpl.
  - repeat constructor.
  - destruct (leb x y) eqn:E.
    + constructor; [exact Hs | now constructor].
    + inversion Hs as [|? ? Hl Hhd]; subst.
      constructor; [now apply IH|].
      destruct l as [|z l]; simpl.
      * constructor. destruct (leb_total x y); congruence.
      * destruct (leb x z).
        -- constructor. destruct (leb_total x y); congruence.
        -- constructor. now inversion Hhd.
Qed.

Lemma sort_values_sorted (l : list A) :
  Sorted (fun a b => leb a b = true) (sort_values leb l).
Proof.
  induction l as [|x l IH]; simpl.
  - constructor.
  - now apply insert_sorted.
Qed.
End SortedFacts.

Lemma StronglySorted_firstn {A : Type} (R : A -> A -> Prop) (n : nat)
    (l : list A) :
  StronglySorted R l -> StronglySorted R (firstn n l).
Proof.
  revert l. induction n as [|n IH]; intros l Hs; simpl.
  - constructor.
  - destruct l as [|a l]; [constructor|].
    inversion Hs as [|? ? Hl Hall]; subst.
    constructor; [now apply IH|].
    rewrite Forall_forall in *. intros x Hx. apply Hall.
    rewrite <- (firstn_skipn n l). apply in_or_app. now left.
Qed.

Lemma NoDup_firstn {A : Type} (n : nat) (l : list A) :
  NoDup l -> NoDup (firstn n l).
Proof.
  intros H. rewrite <- (firstn_skipn n l) in H.
  now apply NoDup_app_remove_r in H.
Qed.

Lemma value_counts_sorted (l : list string) :
  StronglySorted (fun a b : string * nat => (snd b <= snd a)%nat)
                 (value_counts l).
Proof.
  apply Sorted_StronglySorted.
  - intros a b c Hab Hbc. lia.
  - unfold value_counts.
    assert (H : Sorted (fun a b : string * nat =>
                          (snd b <=? snd a)%nat = true)
                       (sort_values (fun a b => (snd b <=? snd a)%nat)
                          (map (fun k => (k, count String.eqb k l))
                               (unique String.eqb l)))).
    { apply sort_values_sorted. intros x y.
      destruct (Nat.le_ge_cases (snd x) (snd y)) as [H|H];
        [right | left]; now apply Nat.leb_le. }
    revert H. generalize (sort_values (fun a b => (snd b <=? snd a)%nat)
                            (map (fun k => (k, count String.eqb k l))
                                 (unique String.eqb l))).
    intros s Hs. induction Hs as [|a s Hs IH Hhd]; constructor; auto.
    destruct Hhd; constructor. now apply Nat.leb_le.
Qed.

Lemma value_counts_labels (l : list string) :
  Permutation (map fst (value_counts l)) (unique String.eqb l).
Proof.
  unfold value_counts. rewrite sort_values_perm, map_map. simpl.
  now rewrite map_id.
Qed.

(** The bars of the first tab come by descending count, each product once,
    with the number of its reordered rows, which is at least one. *)
Theorem top_products_sorted (filtered_df : list MergedRow) (top_n : nat) :
  StronglySorted (fun a b : string * nat => (snd b <= snd a)%nat)
                 (top_products filtered_df top_n) /\
  NoDup (map fst (top_products filtered_df top_n)) /\
  forall p c, In (p, c) (top_products filtered_df top_n) ->
    c = count String.eqb p (reordered_names filtered_df) /\ (1 <= c)%nat.
Proof.
  unfold top_products, head. split; [|split].
  - apply StronglySorted_firstn, value_counts_sorted.
  - rewrite <- firstn_map. apply NoDup_firstn.
    apply (Permutation_NoDup (l := unique String.eqb
                                     (reordered_names filtered_df))).
    + symmetry. apply value_counts_labels.
    + apply (unique_NoDup _ String.eqb_eq).
  - intros p c Hin.
    assert (H : In (p, c) (value_counts (reordered_names filtered_df))).
    { rewrite <- (firstn_skipn top_n). apply in_or_app. now left. }
    apply value_counts_In in H. destruct H as [Hp ->].
    split; [reflexivity|].
    apply (count_pos _ String.eqb_eq) in Hp. lia.
Qed.

Lemma idxmax_from_head (best : string * nat) (l : list (string * nat)) :
  Forall (fun e => (snd e <= snd best)%nat) l ->
  idxmax_from best l = fst best.
Proof.
  induction l as [|x l IH]; intros H; simpl; [reflexivity|].
  inversion H as [|? ? Hx Hl]; subst.
  destruct (snd best <? snd x)%nat eqn:E.
  - apply Nat.ltb_lt in E. lia.
  - now apply IH.
Qed.

(** The product of the Top Reordered Product metric is the first bar of the
    Top Products chart, whatever N of at least one is chosen. *)
Theorem top_product_first_bar (filtered_df : list MergedRow) (n : nat)
    (p : string) :
  top_product filtered_df = Ok p ->
  exists c rest, top_products filtered_df (S n) = (p, c) :: rest.
Proof.
  unfold top_product, top_products, head, idxmax.
  pose proof (value_counts_sorted (reordered_names filtered_df)) as Hs.
  destruct (value_counts (reordered_names filtered_df)) as [|[q c] s];
    [discriminate|].
  intros E. inversion E as [Hp].
  inversion Hs as [|? ? _ Hall]; subst.
  rewrite idxmax_from_head by exact Hall.
  simpl. now exists c, (firstn n s).
Qed.

Lemma top_product_first_bar_witness :
  exists c rest,
    top_products (filter_data Fixture.merged "produce" (0, 23)) 5 =
    ("Bananas"%string, c) :: rest.
Proof.
  apply top_product_first_bar. vm_compute. reflexivity.
Defined.

(** The Top Products chart has N bars, or one per distinct reordered
    product when there are fewer than N. *)
Theorem top_products_length (filtered_df : list MergedRow) (top_n : nat) :
  length (top_products filtered_df top_n) =
  Nat.min top_n (nunique String.eqb (reordered_names filtered_df)).
Proof.
  unfold top_products, head, nunique. rewrite length_firstn. f_equal.
  rewrite <- (Permutation_length (value_counts_labels _)).
  now rewrite length_map.
Qed.

(** ** Orders and baskets *)

Section NUnique.
Context {A : Type}.
Variable eqb : A -> A -> bool.

Lemma nunique_le_length (l : list A) : (nunique eqb l <= length l)%nat.
Proof.
  unfold nunique. induction l as [|a l IH]; simpl; [lia|].
  pose proof (filter_length_le (fun y => negb (eqb a y)) (unique eqb l)).
  lia.
Qed.

Lemma nunique_zero (l : list A) : nunique eqb l = 0%nat <-> l = [].
Proof.
  unfold nunique. destruct l; simpl; split; congruence.
Qed.
End NUnique.

Lemma total_orders_le (filtered_df : list MergedRow) :
  (total_orders filtered_df <= length filtered_df)%nat.
Proof.
  unfold total_orders.
  pose proof (nunique_le_length Z.eqb (map order_id filtered_df)) as H.
  now rewrite length_map in H.
Qed.

Lemma total_orders_zero (filtered_df : list MergedRow) :
  total_orders filtered_df = 0%nat <-> filtered_df = [].
Proof.
  unfold total_orders. rewrite nunique_zero. split.
  - apply map_eq_nil.
  - now intros ->.
Qed.

(** Total Orders never exceeds the number of rows of the subset, and it is
    zero exactly when the subset is empty. *)
Theorem total_orders_bounds (filtered_df : list MergedRow) :
  (total_orders filtered_df <= length filtered_df)%nat /\
  (total_orders filtered_df = 0%nat <-> filtered_df = []).
Proof.
  split; [apply total_orders_le | apply total_orders_zero].
Qed.

Section GroupSizes.
Context {A : Type}.
Variable key : A -> Z.

Lemma sum_map_add (f g : Z -> Z) (ks : list Z) :
  sum (map (fun k => f k + g k) ks) = sum (map f ks) + sum (map g ks).
Proof.
  induction ks as [|k ks IH]; simpl; [reflexivity|].
  unfold sum in *. simpl. rewrite IH. lia.
Qed.

Lemma sum_map_zero (f : Z -> Z) (ks : list Z) :
  (forall k, f k = 0) -> sum (map f ks) = 0.
Proof.
  intros H. induction ks as [|k ks IH]; [reflexivity|].
  change (f k + sum (map f ks) = 0). rewrite H, IH. reflexivity.
Qed.

Lemma sum_indicator (x : Z) (ks : list Z) :
  NoDup ks -> In x ks ->
  sum (map (fun k => if x =? k then 1 else 0) ks) = 1.
Proof.
  induction ks as [|k ks IH]; intros Hnd Hin; [destruct Hin|].
  inversion Hnd as [|? ? Hnotin Hnd']; subst.
  change (sum (map (fun k0 => if x =? k0 then 1 else 0) (k :: ks)))
    with ((if x =? k then 1 else 0)
          + sum (map (fun k0 => if x =? k0 then 1 else 0) ks)).
  destruct (x =? k) eqn:E.
  - apply Z.eqb_eq in E. subst k.
    assert (Z0 : sum (map (fun k0 => if x =? k0 then 1 else 0) ks) = 0).
    { clear IH Hnd Hnd' Hin. induction ks as [|k ks IH]; [reflexivity|].
      change (sum (map (fun k0 => if x =? k0 then 1 else 0) (k :: ks)))
        with ((if x =? k then 1 else 0)
              + sum (map (fun k0 => if x =? k0 then 1 else 0) ks)).
      destruct (x =? k) eqn:E.
      - apply Z.eqb_eq in E. subst k. elim Hnotin. now left.
      - rewrite IH; [lia|]. intros H. apply Hnotin. now right. }
    lia.
  - apply Z.eqb_neq in E. destruct Hin as [->|Hin]; [congruence|].
    rewrite IH; auto.
Qed.

(** The sizes of the groups of a table add up to its number of rows. *)
Lemma group_sizes_sum (df : list A) (ks : list Z) :
  NoDup ks -> (forall r, In r df -> In (key r) ks) ->
  sum (map (fun k => Z.of_nat (length (filter (fun r => key r =? k) df))) ks)
  = Z.of_nat (length df).
Proof.
  intros Hnd. induction df as [|r df IH]; intros Hin.
  - apply sum_map_zero. reflexivity.
  - rewrite (map_ext _ (fun k => (if key r =? k then 1 else 0)
               + Z.of_nat (length (filter (fun r0 => key r0 =? k) df)))).
    + rewrite sum_map_add, IH by (intros r' Hr'; apply Hin; now right).
      rewrite sum_indicator; auto.
      * simpl length. lia.
      * apply Hin. now left.
    + intros k. simpl. destruct (key r =? k); simpl length; lia.
Qed.
End GroupSizes.

Lemma basket_keys (filtered_df : list MergedRow) :
  NoDup (sort_values Z.leb (unique Z.eqb (map order_id filtered_df))) /\
  forall k, In k (sort_values Z.leb (unique Z.eqb (map order_id filtered_df)))
            <-> In k (map order_id filtered_df).
Proof.
  split.
  - apply (Permutation_NoDup (l := unique Z.eqb (map order_id filtered_df))).
    + symmetry. apply sort_values_perm.
    + apply (unique_NoDup _ Z.eqb_eq).
  - intros k. rewrite sort_values_In. apply (unique_In _ Z.eqb_eq).
Qed.

Lemma basket_sizes_sum (filtered_df : list MergedRow) :
  sum (map snd (basket_sizes filtered_df)) = Z.of_nat (length filtered_df).
Proof.
  unfold basket_sizes, groupby. rewrite !map_map. simpl.
  destruct (basket_keys filtered_df) as [Hnd Hin].
  apply (group_sizes_sum order_id); auto.
  intros r Hr. apply Hin. now apply in_map.
Qed.

Lemma basket_sizes_length (filtered_df : list MergedRow) :
  length (basket_sizes filtered_df) = total_orders filtered_df.
Proof.
  unfold basket_sizes, groupby, total_orders, nunique.
  rewrite !length_map. apply Permutation_length, sort_values_perm.
Qed.

(** The basket-size series of the second tab has one entry per distinct
    order of the subset, by ascending order id; every size is the number of
    rows of that order and at least one, and the sizes add up to the number
    of rows of the subset. *)
Theorem basket_sizes_partition (filtered_df : list MergedRow) :
  length (basket_sizes filtered_df) = total_orders filtered_df /\
  Sorted (fun a b => Z.leb a b = true) (map fst (basket_sizes filtered_df)) /\
  NoDup (map fst (basket_sizes filtered_df)) /\
  (forall k n, In (k, n) (basket_sizes filtered_df) ->
     1 <= n /\
     n = Z.of_nat (length (filter (fun r => order_id r =? k) filtered_df))) /\
  sum (map snd (basket_sizes filtered_df)) = Z.of_nat (length filtered_df).
Proof.
  split; [apply basket_sizes_length|].
  assert (Hfst : map fst (basket_sizes filtered_df) =
                 sort_values Z.leb (unique Z.eqb (map order_id filtered_df))).
  { unfold basket_sizes, groupby. rewrite !map_map. simpl. apply map_id. }
  destruct (basket_keys filtered_df) as [Hnd Hin].
  split; [|split; [|split]].
  - rewrite Hfst. apply sort_values_sorted. intros x y.
    rewrite !Z.leb_le. lia.
  - now rewrite Hfst.
  - intros k n H. unfold basket_sizes in H. apply in_map_iff in H.
    destruct H as [[k' g] [E Hg]]. simpl in E. inversion E; subst.
    apply (groupby_In _ _ _ Z.eqb_eq) in Hg. destruct Hg as [Hk ->].
    split; [|reflexivity].
    apply in_map_iff in Hk. destruct Hk as [r [Hr Hrin]].
    assert (Hne : In r (filter (fun r0 => order_id r0 =? k) filtered_df)).
    { apply filter_In. split; auto. now apply Z.eqb_eq. }
    destruct (filter (fun r0 => order_id r0 =? k) filtered_df);
      [destruct Hne | simpl length; lia].
  - apply basket_sizes_sum.
Qed.



(** ** When a run succeeds *)

(** A run displays its page exactly when the selection holds a row with
    [reordered == 1]; otherwise it ends in [ValueError]. *)
Theorem page_succeeds_iff (merged : list MergedRow) (top_n : nat)
    (selected_dept : string) (hour_range : Z * Z) :
  ((exists pg, page merged top_n selected_dept hour_range = Ok pg) <->
   exists r, In r (filter_data merged selected_dept hour_range) /\
             reordered r = 1) /\
  ((forall pg, page merged top_n selected_dept hour_range <> Ok pg) ->
   page merged top_n selected_dept hour_range = Raise ValueError).
Proof.
  unfold page, top_product.
  set (df := filter_data merged selected_dept hour_range).
  destruct (value_counts (reordered_names df)) as [|x s] eqn:E; simpl.
  - apply value_counts_nil in E. split; [|reflexivity]. split.
    + intros [pg H]. discriminate.
    + intros [r [Hr H1]]. exfalso.
      apply (proj1 (reordered_names_nil df) E r Hr H1).
  - split.
    + split; [|intros _; eexists; reflexivity].
      intros _.
      assert (Hx : In (fst x) (reordered_names df)).
      { apply (value_counts_In _ (fst x) (snd x)).
        rewrite E. left. now destruct x. }
      unfold reordered_names in Hx. apply in_map_iff in Hx.
      destruct Hx as [r [_ Hr]]. apply filter_In in Hr.
      exists r. split; [tauto|]. now apply Z.eqb_eq.
    + intros H. exfalso. eapply H. reflexivity.
Qed.

Lemma page_succeeds_iff_witness :
  page Fixture.merged 10 "dairy" (0, 23) = Raise ValueError.
Proof.
  apply (proj2 (page_succeeds_iff Fixture.merged 10 "dairy" (0, 23))).
  intros pg. vm_compute. discriminate.
Defined.

(** ** The select box *)

(** The department select box lists the options in ascending order. *)
Theorem selectbox_options_sorted (merged : list MergedRow) :
  Sorted (fun a b => String.leb a b = true) (selectbox_options merged).
Proof.
  unfold selectbox_options, sorted.
  apply sort_values_sorted, String.leb_total.
Qed.

(** ** The one ratio of the fifth tab *)




